(** * crypto-mcp-server: the price tool of [src/index.ts]

    A shallow embedding of the two request handlers the server registers
    (tool listing and tool call), of the argument schema [PriceArgsSchema]
    and of the effects the call handler has: exceptions, [try]/[catch] and
    the outbound [fetch].

    What belongs to the JavaScript runtime and to the libraries, and is not
    written in [src/index.ts], is kept abstract in a [runtime] record:
    printing of numbers, Unicode upper-casing, members an object inherits,
    string conversion of objects and the wording of messages. *)

From Stdlib Require Import String Ascii List Bool Arith PeanoNat PArith Lia.
From Stdlib Require Import DecimalString.
Import ListNotations.
Open Scope list_scope.
Open Scope string_scope.

Set Warnings "-register-all".

(** ** Validation issues of the schema library *)

(** The type tags zod reports in an issue ([getParsedType]). *)
Inductive parsed_type :=
| PT_undefined | PT_null | PT_boolean | PT_number | PT_nan
| PT_string | PT_array | PT_object.

(** The two kinds of issue [PriceArgsSchema] can raise, each with the path of
    the field it is about. *)
Inductive zod_issue :=
| invalid_type (expected received : parsed_type) (path : list string)
| too_small (minimum : nat) (path : list string).

(** Thrown values.  Everything the handler can catch is an error object with
    a [message]; a [ZodError] carries its issues, the others their text. *)
Inductive exn :=
| ZodError (issues : list zod_issue)
| JsError (name : string) (message : string).

(** Outcome of evaluating an expression or awaiting a promise. *)
Inductive completion (A : Type) :=
| Normal (a : A)
| Throw (e : exn).
Arguments Normal {A} a.
Arguments Throw {A} e.

(** ** The tool descriptor (lines 40-61) *)

Record property_schema := {
  prop_type : string;
  prop_description : string
}.

Record input_schema := {
  schema_type : string;
  properties : list (string * property_schema);
  required : list string
}.

Record tool := {
  name : string;
  description : string;
  inputSchema : input_schema
}.

Record list_tools_result := { tools : list tool }.

(** ** The result of a tool call *)

Record content_block := {
  type : string;
  text : string
}.

Record call_tool_result := { content : list content_block }.

(** [{ content: [ { type: "text", text } ] }] *)
Definition text_result (t : string) : call_tool_result :=
  {| content := [ {| type := "text"; text := t |} ] |}.

(** ** Effects: the calls of [fetch] *)

(** A call [fetch(url)] with no options: a GET of [url]. *)
Inductive event := HttpGet (url : string).

Definition trace := list event.

Section Values.

(** Doubles other than +0, -0 and NaN. *)
Variable nonzero : Type.
(** Objects of the runtime that no JSON text denotes (functions,
    prototype objects). *)
Variable native : Type.

Inductive number :=
| Zero (negative : bool)
| NaN
| NonZero (x : nonzero).

(** A parsed JSON text.  The members of an object are its own properties;
    the first binding of a key is the one the object holds. *)
Inductive json :=
| JNull
| JBool (b : bool)
| JNumber (n : number)
| JString (s : string)
| JArray (items : list json)
| JObject (members : list (string * json)).

Inductive value :=
| Undefined
| Json (j : json)
| Native (o : native).

(** [interface CoinGeckoResponse]: the cast [as CoinGeckoResponse] of line 74
    is not checked when the program runs, so the body is any parsed JSON. *)
Definition CoinGeckoResponse := json.

(** What [res.json()] settles to is a property of the response. *)
Record http_response := { json_body : completion CoinGeckoResponse }.

(** The network: what [fetch(url)] settles to, given the calls made so
    far. *)
Definition network := trace -> string -> completion http_response.

Record runtime := {
  (** Number::toString on a double that is neither zero nor NaN *)
  nonzero_toString : nonzero -> string;
  (** String.prototype.toUpperCase *)
  toUpperCase : string -> string;
  (** a property read that the parsed tree does not decide: an inherited
      member, an index or the length of an array or string, a member of a
      primitive or of a native object *)
  runtime_get : value -> string -> completion value;
  (** string conversion of an array, an object or a native object *)
  object_toString : value -> completion string;
  (** message of the TypeError raised by reading a member of [null] or
      [undefined] *)
  nullish_read_message : value -> string -> string;
  (** [ZodError.prototype.message] *)
  zod_message : list zod_issue -> string;
  (** the network the process is connected to *)
  net : network
}.

Fixpoint own_member (members : list (string * json)) (key : string)
  : option json :=
  match members with
  | [] => None
  | (k, v) :: rest => if String.eqb k key then Some v else own_member rest key
  end.

(** ** [PriceArgsSchema] (lines 13-16) *)

(** [type PriceArgs = z.infer<typeof PriceArgsSchema>] *)
Record PriceArgs := { coin : string; currency : string }.

Definition getParsedType (data : option json) : parsed_type :=
  match data with
  | None => PT_undefined
  | Some JNull => PT_null
  | Some (JBool _) => PT_boolean
  | Some (JNumber NaN) => PT_nan
  | Some (JNumber _) => PT_number
  | Some (JString _) => PT_string
  | Some (JArray _) => PT_array
  | Some (JObject _) => PT_object
  end.

(** [coin: z.string().min(1)] *)
Definition coin_schema (data : option json) : list zod_issue + string :=
  match data with
  | Some (JString s) =>
      if Nat.ltb (String.length s) 1 then inl [too_small 1 ["coin"]] else inr s
  | _ => inl [invalid_type PT_string (getParsedType data) ["coin"]]
  end.

(** [currency: z.string().optional().default("usd")]: an absent value is
    replaced by the default before the string check. *)
Definition currency_schema (data : option json) : list zod_issue + string :=
  match data with
  | None => inr "usd"
  | Some (JString s) => inr s
  | _ => inl [invalid_type PT_string (getParsedType data) ["currency"]]
  end.

Definition issues_of {A : Type} (r : list zod_issue + A) : list zod_issue :=
  match r with
  | inl issues => issues
  | inr _ => []
  end.

(** [PriceArgsSchema.parse]: every field is checked and the issues of all
    fields are collected; unknown keys are dropped. *)
Definition PriceArgsSchema_parse (rawArgs : option json)
  : completion PriceArgs :=
  match rawArgs with
  | Some (JObject members) =>
      let c := coin_schema (own_member members "coin") in
      let cur := currency_schema (own_member members "currency") in
      match c, cur with
      | inr c', inr cur' => Normal {| coin := c'; currency := cur' |}
      | _, _ => Throw (ZodError (issues_of c ++ issues_of cur)%list)
      end
  | _ => Throw (ZodError [invalid_type PT_object (getParsedType rawArgs) []])
  end.

(** ** [CallToolRequestSchema] (line 64)

    [setRequestHandler] runs the request through the schema it is given
    before the handler sees it: [arguments] must be absent or an object. *)
Definition CallToolRequestSchema_parse (rawArgs : option json)
  : completion (option json) :=
  match rawArgs with
  | None => Normal rawArgs
  | Some (JObject _) => Normal rawArgs
  | Some _ =>
      Throw (ZodError [invalid_type PT_object (getParsedType rawArgs)
                         ["params"; "arguments"]])
  end.

Section Handlers.

Variable rt : runtime.

Definition message (e : exn) : string :=
  match e with
  | ZodError issues => zod_message rt issues
  | JsError _ m => m
  end.

(** *** Member reads, truthiness, string conversion *)

Definition nullish (v : value) : bool :=
  match v with
  | Undefined | Json JNull => true
  | _ => false
  end.

(** [v[key]] *)
Definition get (v : value) (key : string) : completion value :=
  match v with
  | Undefined | Json JNull =>
      Throw (JsError "TypeError" (nullish_read_message rt v key))
  | Json (JObject members) =>
      match own_member members key with
      | Some j => Normal (Json j)
      | None => runtime_get rt v key
      end
  | _ => runtime_get rt v key
  end.

(** [data[coin]?.[currency]] (line 76) *)
Definition lookup_price (data : CoinGeckoResponse) (coin currency : string)
  : completion value :=
  match get (Json data) coin with
  | Throw e => Throw e
  | Normal v => if nullish v then Normal Undefined else get v currency
  end.

(** [!v] *)
Definition falsy (v : value) : bool :=
  match v with
  | Undefined => true
  | Json JNull => true
  | Json (JBool b) => negb b
  | Json (JNumber (Zero _)) => true
  | Json (JNumber NaN) => true
  | Json (JNumber (NonZero _)) => false
  | Json (JString s) => String.eqb s ""
  | Json (JArray _) | Json (JObject _) | Native _ => false
  end.

Definition Number_toString (n : number) : string :=
  match n with
  | Zero _ => "0"
  | NaN => "NaN"
  | NonZero x => nonzero_toString rt x
  end.

(** [${v}] *)
Definition to_string (v : value) : completion string :=
  match v with
  | Undefined => Normal "undefined"
  | Json JNull => Normal "null"
  | Json (JBool true) => Normal "true"
  | Json (JBool false) => Normal "false"
  | Json (JNumber n) => Normal (Number_toString n)
  | Json (JString s) => Normal s
  | _ => object_toString rt v
  end.

(** *** The monad of the handlers: exceptions over a log of requests *)

Definition M (A : Type) : Type := trace -> completion A * trace.

Definition ret {A} (a : A) : M A := fun tr => (Normal a, tr).

Definition throw {A} (e : exn) : M A := fun tr => (Throw e, tr).

Definition bind {A B} (m : M A) (k : A -> M B) : M B :=
  fun tr =>
    match m tr with
    | (Normal a, tr') => k a tr'
    | (Throw e, tr') => (Throw e, tr')
    end.

Definition lift {A} (c : completion A) : M A := fun tr => (c, tr).

(** [try { body } catch (err) { handler }] *)
Definition try_catch {A} (body : M A) (handler : exn -> M A) : M A :=
  fun tr =>
    match body tr with
    | (Normal a, tr') => (Normal a, tr')
    | (Throw e, tr') => handler e tr'
    end.

(** [await fetch(url)] *)
Definition fetch (url : string) : M http_response :=
  fun tr => (net rt tr url, (tr ++ [HttpGet url])%list).

Notation "x <- m ;; k" := (bind m (fun x => k))
  (at level 100, m at next level, right associativity).

(** *** Tool listing (lines 40-61) *)

Definition price_tool : tool :=
  {| name := "get-crypto-price";
     description := "Fetch current price of a cryptocurrency from CoinGecko";
     inputSchema :=
       {| schema_type := "object";
          properties :=
            [ ("coin",
               {| prop_type := "string";
                  prop_description :=
                    "CoinGecko coin ID (e.g., bitcoin, ethereum)" |});
              ("currency",
               {| prop_type := "string";
                  prop_description :=
                    "Fiat currency (e.g., usd, eur). Default is 'usd'." |}) ];
          required := ["coin"] |} |}.

Definition ListTools_handler : M list_tools_result :=
  ret {| tools := [price_tool] |}.

(** *** Tool call (lines 64-109) *)

Definition price_url (coin currency : string) : string :=
  "https://api.coingecko.com/api/v3/simple/price?ids=" ++ coin
    ++ "&vs_currencies=" ++ currency.

Definition not_found_text (coin currency : string) : string :=
  "Could not find price for " ++ coin ++ " in " ++ currency ++ ".".

Definition price_text (coin price currency : string) : string :=
  toUpperCase rt coin ++ " = " ++ price ++ " " ++ toUpperCase rt currency.

Definition CallTool_handler (name : string) (rawArgs : option json)
  : M call_tool_result :=
  if String.eqb name "get-crypto-price" then
    try_catch
      (args <- lift (PriceArgsSchema_parse rawArgs) ;;
       let coin := coin args in
       let currency := currency args in
       let url := price_url coin currency in
       res <- fetch url ;;
       data <- lift (json_body res) ;;
       price <- lift (lookup_price data coin currency) ;;
       if falsy price then
         ret (text_result (not_found_text coin currency))
       else
         shown <- lift (to_string price) ;;
         ret (text_result (price_text coin shown currency)))
      (fun err => ret (text_result ("Error: " ++ message err)))
  else
    throw (JsError "Error" ("Unknown tool: " ++ name)).

(** *** The server: requests to responses *)

Inductive request :=
| ListToolsRequest
| CallToolRequest (name : string) (arguments : option json).

Inductive response :=
| ToolsResponse (r : list_tools_result)
| CallResponse (r : call_tool_result)
| ErrorResponse (message : string).

(** The protocol layer answers with the handler's result, or with an
    error response carrying the message of what was thrown, by the handler
    or by the check of the request before it. *)
Definition respond {A} (wrap : A -> response) (m : M A)
  : trace -> response * trace :=
  fun tr =>
    match m tr with
    | (Normal a, tr') => (wrap a, tr')
    | (Throw e, tr') => (ErrorResponse (message e), tr')
    end.

Definition server (req : request) : trace -> response * trace :=
  match req with
  | ListToolsRequest => respond ToolsResponse ListTools_handler
  | CallToolRequest name rawArgs =>
      respond CallResponse
        (checked <- lift (CallToolRequestSchema_parse rawArgs) ;;
         CallTool_handler name checked)
  end.

(** One request is handled to completion before the next. *)
Fixpoint serve (reqs : list request) (tr : trace)
  : list response * trace :=
  match reqs with
  | [] => ([], tr)
  | req :: rest =>
      let (r, tr') := server req tr in
      let (rs, tr'') := serve rest tr' in
      (r :: rs, tr'')
  end.

End Handlers.

End Values.

Arguments Zero {nonzero} negative.
Arguments NaN {nonzero}.
Arguments NonZero {nonzero} x.
Arguments JNull {nonzero}.
Arguments JBool {nonzero} b.
Arguments JNumber {nonzero} n.
Arguments JString {nonzero} s.
Arguments JArray {nonzero} items.
Arguments JObject {nonzero} members.
Arguments Undefined {nonzero native}.
Arguments Json {nonzero native} j.
Arguments Native {nonzero native} o.
Arguments json_body {nonzero} h.
Arguments Build_http_response {nonzero} json_body.
Arguments own_member {nonzero} members key.
Arguments getParsedType {nonzero} data.
Arguments coin_schema {nonzero} data.
Arguments currency_schema {nonzero} data.
Arguments PriceArgsSchema_parse {nonzero} rawArgs.
Arguments CallToolRequestSchema_parse {nonzero} rawArgs.
Arguments nonzero_toString {nonzero native} r x.
Arguments toUpperCase {nonzero native} r s.
Arguments runtime_get {nonzero native} r v key.
Arguments object_toString {nonzero native} r v.
Arguments nullish_read_message {nonzero native} r v key.
Arguments zod_message {nonzero native} r issues.
Arguments net {nonzero native} r tr url.
Arguments message {nonzero native} rt e.
Arguments nullish {nonzero native} v.
Arguments get {nonzero native} rt v key.
Arguments lookup_price {nonzero native} rt data coin currency.
Arguments falsy {nonzero native} v.
Arguments Number_toString {nonzero native} rt n.
Arguments to_string {nonzero native} rt v.
Arguments fetch {nonzero native} rt url tr.
Arguments price_text {nonzero native} rt coin price currency.
Arguments CallTool_handler {nonzero native} rt name rawArgs tr.
Arguments ListToolsRequest {nonzero}.
Arguments CallToolRequest {nonzero} name arguments.
Arguments respond {nonzero native} rt {A} wrap m tr.
Arguments server {nonzero native} rt req tr.
Arguments serve {nonzero native} rt reqs tr.

(** ** What the specification says, for comparison with the code *)

(** The descriptor as section 6 of the specification words it. *)
Definition spec_price_tool : tool :=
  {| name := "get-crypto-price";
     description := "Fetch current price of a cryptocurrency from CoinGecko";
     inputSchema :=
       {| schema_type := "object";
          properties :=
            [ ("coin",
               {| prop_type := "string";
                  prop_description :=
                    "coin identifier, e.g. bitcoin, ethereum" |});
              ("currency",
               {| prop_type := "string";
                  prop_description :=
                    "fiat currency code, default 'usd'" |}) ];
          required := ["coin"] |} |}.

Definition is_string {nonzero : Type} (j : json nonzero) : bool :=
  match j with
  | JString _ => true
  | _ => false
  end.

(** Arguments the specification calls invalid: [coin] missing, an empty
    string or not a string, or [currency] present but not a string; and
    arguments that are no object at all. *)
Definition fails_validation {nonzero : Type} (rawArgs : option (json nonzero))
  : Prop :=
  match rawArgs with
  | Some (JObject members) =>
      own_member members "coin" = None
      \/ own_member members "coin" = Some (JString "")
      \/ (exists j, own_member members "coin" = Some j /\ is_string j = false)
      \/ (exists j, own_member members "currency" = Some j
                    /\ is_string j = false)
  | _ => True
  end.




(** How a price that is a number, a string or [true] reads in a text: a
    number as the runtime prints it, a string as it is. *)
Inductive renders {nonzero native : Type} (rt : runtime nonzero native)
  : json nonzero -> string -> Prop :=
| renders_number x : renders rt (JNumber (NonZero x)) (nonzero_toString rt x)
| renders_string s : s <> "" -> renders rt (JString s) s
| renders_true : renders rt (JBool true) "true".

(** The issues say what is wrong with the arguments: each failing field has
    an issue at its path. *)
Definition describes {nonzero : Type} (rawArgs : option (json nonzero))
  (issues : list zod_issue) : Prop :=
  match rawArgs with
  | Some (JObject members) =>
      (own_member members "coin" = None ->
       In (invalid_type PT_string PT_undefined ["coin"]) issues)
      /\ (own_member members "coin" = Some (JString "") ->
          In (too_small 1 ["coin"]) issues)
      /\ (forall j,
            own_member members "coin" = Some j ->
            is_string j = false ->
            In (invalid_type PT_string (getParsedType (Some j)) ["coin"])
              issues)
      /\ (forall j,
            own_member members "currency" = Some j ->
            is_string j = false ->
            In (invalid_type PT_string (getParsedType (Some j)) ["currency"])
              issues)
  | _ => issues = [invalid_type PT_object (getParsedType rawArgs) []]
  end.

(** Arguments as the request check lets them through: absent or an
    object. *)
Definition record_or_absent {nonzero : Type} (rawArgs : option (json nonzero))
  : bool :=
  match rawArgs with
  | None => true
  | Some (JObject _) => true
  | Some _ => false
  end.

(** ** A runtime for the worked examples

    Text is ASCII, prices are nonzero integers of at most 15 significant
    digits, the keys read are not names of inherited members, and the
    message of a [ZodError] is the texts of its issues, joined. *)

Inductive integer :=
| IntPos (p : positive)
| IntNeg (p : positive).

Definition decimal (p : positive) : string :=
  NilEmpty.string_of_uint (Pos.to_uint p).

(** The digits of a number without its trailing zeros. *)
Fixpoint significant (digits : string) : string :=
  match digits with
  | EmptyString => EmptyString
  | String c rest =>
      match significant rest with
      | EmptyString =>
          if Ascii.eqb c "0" then EmptyString else String c EmptyString
      | kept => String c kept
      end
  end.

(** Number::toString on a positive integer of at most 15 significant
    digits: plain digits below 10^21, and from there on the significant
    digits, a point after the first, and the exponent. *)
Definition positive_toString (p : positive) : string :=
  let digits := decimal p in
  let n := String.length digits in
  if (n <=? 21)%nat then digits
  else
    let exponent := "e+" ++ NilEmpty.string_of_uint (Nat.to_uint (n - 1)) in
    match significant digits with
    | EmptyString => digits
    | String c EmptyString => String c exponent
    | String c more => String c ("." ++ more ++ exponent)
    end.

Definition integer_toString (i : integer) : string :=
  match i with
  | IntPos p => positive_toString p
  | IntNeg p => "-" ++ positive_toString p
  end.

Definition upper_ascii (c : ascii) : ascii :=
  let n := nat_of_ascii c in
  if (97 <=? n)%nat && (n <=? 122)%nat then ascii_of_nat (n - 32) else c.

Fixpoint ascii_toUpperCase (s : string) : string :=
  match s with
  | EmptyString => EmptyString
  | String c rest => String (upper_ascii c) (ascii_toUpperCase rest)
  end.

Definition type_name (t : parsed_type) : string :=
  match t with
  | PT_undefined => "undefined"
  | PT_null => "null"
  | PT_boolean => "boolean"
  | PT_number => "number"
  | PT_nan => "nan"
  | PT_string => "string"
  | PT_array => "array"
  | PT_object => "object"
  end.

(** The text zod attaches to one issue. *)
Definition issue_message (i : zod_issue) : string :=
  match i with
  | invalid_type _ PT_undefined _ => "Required"
  | invalid_type e r _ =>
      "Expected " ++ type_name e ++ ", received " ++ type_name r
  | too_small _ _ => "String must contain at least 1 character(s)"
  end.

Definition example_read_message (v : value integer Empty_set) (key : string)
  : string :=
  "Cannot read properties of "
    ++ match v with Undefined => "undefined" | _ => "null" end
    ++ " (reading '" ++ key ++ "')".

Definition example_runtime (n : network integer)
  : runtime integer Empty_set :=
  {| nonzero_toString := integer_toString;
     toUpperCase := ascii_toUpperCase;
     runtime_get := fun _ _ => Normal Undefined;
     object_toString := fun _ => Normal "[object Object]";
     nullish_read_message := example_read_message;
     zod_message :=
       fun issues => String.concat "; " (map issue_message issues);
     net := n |}.

(** A network on which every GET is answered with the JSON [body]. *)
Definition answers (body : json integer) : network integer :=
  fun _ _ => Normal {| json_body := Normal body |}.

(** A network on which every call of [fetch] rejects with [e]. *)
Definition unreachable (e : exn) : network integer :=
  fun _ _ => Throw e.

(** A network whose responses carry a body that is no JSON text. *)
Definition garbled (e : exn) : network integer :=
  fun _ _ => Normal {| json_body := Throw e |}.

Definition online (body : json integer) : runtime integer Empty_set :=
  example_runtime (answers body).

Definition offline (e : exn) : runtime integer Empty_set :=
  example_runtime (unreachable e).

(** [{ coin: "bitcoin" }] *)
Definition bitcoin_args : option (json integer) :=
  Some (JObject [("coin", JString "bitcoin")]).

(** [{ coin: "bitcoin", currency: "" }] *)
Definition bitcoin_empty_currency_args : option (json integer) :=
  Some (JObject [("coin", JString "bitcoin"); ("currency", JString "")]).

(** [{ "bitcoin": { "usd": 65000 } }] *)
Definition body_65000 : json integer :=
  JObject [("bitcoin", JObject [("usd", JNumber (NonZero (IntPos 65000)))])].


(** [{}] *)
Definition body_empty : json integer := JObject [].

(** [{ "bitcoin": { "usd": 1000000000000000000000 } }] *)
Definition body_1e21 : json integer :=
  JObject [("bitcoin",
            JObject [("usd",
                      JNumber (NonZero (IntPos 1000000000000000000000)))])].

(** [{ coin: 42 }] *)
Definition numeric_coin_args : option (json integer) :=
  Some (JObject [("coin", JNumber (NonZero (IntPos 42)))]).

(** [{ currency: "eur" }] *)
Definition currency_only_args : option (json integer) :=
  Some (JObject [("currency", JString "eur")]).

Definition refusal : string :=
  "request to https://api.coingecko.com/ failed, reason: connect ECONNREFUSED".

Definition connection_refused : exn := JsError "FetchError" refusal.

Definition not_json : exn :=
  JsError "SyntaxError" "Unexpected token < in JSON at position 0".

(** ** Sessions: what a run of requests should send and receive *)

(** The calls of [fetch] one request stands for: one GET for a call of the
    price tool with arguments that validate, none otherwise. *)
Definition outbound {nonzero : Type} (req : request nonzero) : list event :=
  match req with
  | ListToolsRequest => []
  | CallToolRequest name rawArgs =>
      if String.eqb name "get-crypto-price" then
        match PriceArgsSchema_parse rawArgs with
        | Normal args => [HttpGet (price_url (coin args) (currency args))]
        | Throw _ => []
        end
      else []
  end.

(** The kind of response that goes with a request: the listing, for a call
    whose arguments are absent or an object a single text block or the
    unknown-tool error, and an error response for any other call. *)
Definition fits {nonzero : Type} (req : request nonzero) (resp : response)
  : Prop :=
  match req with
  | ListToolsRequest => resp = ToolsResponse {| tools := [price_tool] |}
  | CallToolRequest name rawArgs =>
      if record_or_absent rawArgs then
        if String.eqb name "get-crypto-price"
        then exists t,
            resp = CallResponse
                     {| content := [ {| type := "text"; text := t |} ] |}
        else resp = ErrorResponse ("Unknown tool: " ++ name)
      else exists msg, resp = ErrorResponse msg
  end.

(** The one endpoint of line 72, up to the coin. *)
Definition endpoint : string :=
  "https://api.coingecko.com/api/v3/simple/price?ids=".

Definition to_endpoint (ev : event) : bool :=
  match ev with
  | HttpGet url => String.prefix endpoint url
  end.

(** A network whose answers do not depend on the calls made before. *)
Definition history_free {nonzero : Type} (n : network nonzero) : Prop :=
  forall (tr1 tr2 : trace) (url : string), n tr1 url = n tr2 url.

(** Validated arguments written out as an argument object. *)
Definition explicit {nonzero : Type} (args : PriceArgs) : json nonzero :=
  JObject [("coin", JString (coin args));
           ("currency", JString (currency args))].

(** ** The advertised input schema, read as JSON Schema *)

(** [type] of JSON Schema, for the types a parsed value can have. *)
Definition json_has_type {nonzero : Type} (t : string) (j : json nonzero)
  : bool :=
  match j with
  | JNull => String.eqb t "null"
  | JBool _ => String.eqb t "boolean"
  | JNumber _ => String.eqb t "number"
  | JString _ => String.eqb t "string"
  | JArray _ => String.eqb t "array"
  | JObject _ => String.eqb t "object"
  end.

(** An argument value satisfies an input schema when it has the schema's
    type, holds every [required] member, and each member named in
    [properties] that it holds has the type given there. *)
Definition satisfies_input_schema {nonzero : Type} (sch : input_schema)
  (rawArgs : option (json nonzero)) : bool :=
  match rawArgs with
  | Some (JObject members) =>
      String.eqb (schema_type sch) "object"
      && forallb (fun key =>
                    match own_member members key with
                    | Some _ => true
                    | None => false
                    end) (required sch)
      && forallb (fun entry =>
                    match own_member members (fst entry) with
                    | Some j => json_has_type (prop_type (snd entry)) j
                    | None => true
                    end) (properties sch)
  | Some j => json_has_type (schema_type sch) j
  | None => false
  end.

(** ** Process start (lines 111-121) *)

(** What [console.error] is given, and the end of the process. *)
Inductive console_arg :=
| Text (s : string)
| Thrown (e : exn).

Inductive process_event :=
| ConsoleError (args : list console_arg)
| ProcessExit (code : nat).

(** The notice of line 115, byte for byte. *)
Definition ready_notice : string :=
  "âœ… Crypto MCP Server running on stdio".

(** [async function main()]: [connect] is what [server.connect(transport)]
    settles to. *)
Definition main (connect : completion unit)
  : completion unit * list process_event :=
  match connect with
  | Normal _ => (Normal tt, [ConsoleError [Text ready_notice]])
  | Throw e => (Throw e, [])
  end.

(** [main().catch((err) => { console.error("Fatal error:", err);
    process.exit(1); })] *)
Definition start (connect : completion unit) : list process_event :=
  match main connect with
  | (Normal _, log) => log
  | (Throw err, log) =>
      (log ++ [ConsoleError [Text "Fatal error:"; Thrown err];
               ProcessExit 1])%list
  end.

Fixpoint exit_code (log : list process_event) : option nat :=
  match log with
  | [] => None
  | ProcessExit code :: _ => Some code
  | ConsoleError _ :: rest => exit_code rest
  end.

(** What a run of the process wrote with [console.error]. *)
Fixpoint diagnostics (log : list process_event) : list (list console_arg) :=
  match log with
  | [] => []
  | ConsoleError args :: rest => args :: diagnostics rest
  | ProcessExit _ :: rest => diagnostics rest
  end.

(** * Properties *)

Section Properties.

Variables nonzero native : Type.
Variable rt : runtime nonzero native.

Implicit Types (members : list (string * json nonzero)).
Implicit Types (rawArgs : option (json nonzero)) (args : PriceArgs).
Implicit Types (tr : trace) (e : exn).

(** ** The schema *)

Lemma length_lt_1 (s : string) :
  Nat.ltb (String.length s) 1 = true <-> s = "".
Proof.
  destruct s as [|c s]; simpl; split; intros H;
    try reflexivity; discriminate.
Qed.

Lemma coin_schema_inr (d : option (json nonzero)) (s : string) :
  coin_schema d = inr s <-> d = Some (JString s) /\ s <> "".
Proof.
  unfold coin_schema. split.
  - destruct d as [[| b | n | s' | l | m]|]; try discriminate.
    destruct (Nat.ltb (String.length s') 1) eqn:E; try discriminate.
    intros [= ->]. split; [reflexivity|].
    intros ->. discriminate.
  - intros [-> Hs].
    destruct (Nat.ltb (String.length s) 1) eqn:E; [|reflexivity].
    apply length_lt_1 in E. contradiction.
Qed.

Lemma currency_schema_inr (d : option (json nonzero)) (s : string) :
  currency_schema d = inr s <->
  (d = None /\ s = "usd") \/ d = Some (JString s).
Proof.
  unfold currency_schema. split.
  - destruct d as [[| b | n | s' | l | m]|]; try discriminate.
    + intros [= ->]. right. reflexivity.
    + intros [= <-]. left. split; reflexivity.
  - intros [[-> ->] | ->]; reflexivity.
Qed.

Lemma coin_issues (d : option (json nonzero)) (i : list zod_issue) :
  coin_schema d = inl i -> i <> [].
Proof.
  unfold coin_schema.
  destruct d as [[| b | n | s' | l | m]|]; try (intros [= <-]; discriminate).
  destruct (Nat.ltb (String.length s') 1); intros [= <-]; discriminate.
Qed.

Lemma currency_issues (d : option (json nonzero)) (i : list zod_issue) :
  currency_schema d = inl i -> i <> [].
Proof.
  unfold currency_schema.
  destruct d as [[| b | n | s' | l | m]|]; intros [= <-]; discriminate.
Qed.

(** Validation succeeds exactly on an object whose two fields pass their
    schemas, and returns what the schemas return. *)
Lemma parse_Normal rawArgs args :
  PriceArgsSchema_parse rawArgs = Normal args <->
  exists members,
    rawArgs = Some (JObject members)
    /\ coin_schema (own_member members "coin") = inr (coin args)
    /\ currency_schema (own_member members "currency") = inr (currency args).
Proof.
  unfold PriceArgsSchema_parse. split.
  - destruct rawArgs as [[| b | n | s' | l | members]|]; try discriminate.
    destruct (coin_schema (own_member members "coin")) as [i1|c] eqn:Ec;
      destruct (currency_schema (own_member members "currency"))
        as [i2|cur] eqn:Ecur;
      try discriminate.
    intros [= <-]. exists members. simpl. auto.
  - intros (members & -> & Hc & Hcur). rewrite Hc, Hcur.
    destruct args; reflexivity.
Qed.

(** What validation throws is a [ZodError] with at least one issue. *)
Lemma parse_Throw rawArgs e :
  PriceArgsSchema_parse rawArgs = Throw e ->
  exists issues, e = ZodError issues /\ issues <> [].
Proof.
  unfold PriceArgsSchema_parse.
  destruct rawArgs as [[| b | n | s' | l | members]|];
    try (intros [= <-]; eexists; split; [reflexivity | discriminate]).
  destruct (coin_schema (own_member members "coin")) as [i1|c] eqn:E1;
    destruct (currency_schema (own_member members "currency"))
      as [i2|cur] eqn:E2;
    try discriminate; intros [= <-]; eexists; (split; [reflexivity|]); simpl.
  - apply coin_issues in E1. destruct i1; [contradiction | discriminate].
  - rewrite app_nil_r. eapply coin_issues; eassumption.
  - eapply currency_issues; eassumption.
Qed.

Lemma is_string_false (j : json nonzero) :
  is_string j = false <-> forall s, j <> JString s.
Proof.
  destruct j; simpl; split; intros H; try reflexivity; try discriminate.
  exfalso. apply (H s). reflexivity.
Qed.

(** The arguments the specification calls invalid are those validation
    rejects. *)
Lemma fails_validation_iff rawArgs :
  fails_validation rawArgs
  <-> exists e, PriceArgsSchema_parse rawArgs = Throw e.
Proof.
  split.
  - intros H.
    destruct (PriceArgsSchema_parse rawArgs) as [args|e] eqn:E;
      [exfalso | eexists; reflexivity].
    apply parse_Normal in E. destruct E as (members & -> & Hc & Hcur).
    apply coin_schema_inr in Hc. destruct Hc as [Hc Hne].
    apply currency_schema_inr in Hcur.
    simpl in H. rewrite Hc in H.
    destruct H as [H | [H | [(j & H & Hj) | (j & H & Hj)]]].
    + discriminate.
    + injection H as H. contradiction.
    + injection H as <-. discriminate.
    + destruct Hcur as [[Hcur _] | Hcur]; rewrite Hcur in H;
        [discriminate | injection H as <-; discriminate].
  - intros [e He].
    destruct rawArgs as [[| b | n | s' | l | members]|]; simpl; trivial.
    destruct (own_member members "coin") as [jc|] eqn:Ec; [|left; reflexivity].
    destruct (is_string jc) eqn:Sc;
      [| right; right; left; exists jc; split; [reflexivity | exact Sc]].
    destruct jc as [| b | n | c | l | m]; try discriminate.
    destruct (string_dec c "") as [-> | Hne];
      [right; left; reflexivity |].
    destruct (own_member members "currency") as [jcur|] eqn:Ecur.
    + destruct (is_string jcur) eqn:Scur;
        [| right; right; right; exists jcur; split; [reflexivity | exact Scur]].
      destruct jcur as [| b | n | cur | l | m]; try discriminate.
      exfalso.
      assert (PriceArgsSchema_parse (Some (JObject members))
              = Normal {| coin := c; currency := cur |}) as HN.
      { apply parse_Normal. exists members. rewrite Ec, Ecur.
        split; [reflexivity|]. split.
        - apply coin_schema_inr. auto.
        - apply currency_schema_inr. right. reflexivity. }
      rewrite HN in He. discriminate.
    + exfalso.
      assert (PriceArgsSchema_parse (Some (JObject members))
              = Normal {| coin := c; currency := "usd" |}) as HN.
      { apply parse_Normal. exists members. rewrite Ec, Ecur.
        split; [reflexivity|]. split.
        - apply coin_schema_inr. auto.
        - apply currency_schema_inr. left. auto. }
      rewrite HN in He. discriminate.
Qed.

(** The issues of a failed validation name each failing field. *)
Lemma parse_describes rawArgs (issues : list zod_issue) :
  PriceArgsSchema_parse rawArgs = Throw (ZodError issues) ->
  describes rawArgs issues.
Proof.
  unfold PriceArgsSchema_parse, describes.
  destruct rawArgs as [[| b | n | s' | l | members]|];
    try (intros [= <-]; reflexivity).
  intros H.
  assert (issues
          = (issues_of (coin_schema (own_member members "coin"))
               ++ issues_of
                    (currency_schema (own_member members "currency")))%list)
    as ->.
  { destruct (coin_schema (own_member members "coin"));
      destruct (currency_schema (own_member members "currency"));
      try discriminate; injection H as <-; reflexivity. }
  clear H. repeat split.
  - intros ->. apply in_or_app. left. simpl. auto.
  - intros ->. apply in_or_app. left. simpl. auto.
  - intros j -> Hj. apply in_or_app. left.
    destruct j; try discriminate; simpl; auto.
  - intros j -> Hj. apply in_or_app. right.
    destruct j; try discriminate; simpl; auto.
Qed.

(** ** The call handler, path by path *)

Lemma CallTool_unknown (name : string) rawArgs tr :
  name <> "get-crypto-price" ->
  CallTool_handler rt name rawArgs tr
  = (Throw (JsError "Error" ("Unknown tool: " ++ name)), tr).
Proof.
  intros Hname. unfold CallTool_handler.
  destruct (String.eqb_spec name "get-crypto-price") as [E|_];
    [contradiction | reflexivity].
Qed.

Lemma CallTool_invalid rawArgs e tr :
  PriceArgsSchema_parse rawArgs = Throw e ->
  CallTool_handler rt "get-crypto-price" rawArgs tr
  = (Normal (text_result ("Error: " ++ message rt e)), tr).
Proof.
  intros H. unfold CallTool_handler. rewrite String.eqb_refl.
  unfold try_catch, bind, lift, ret. rewrite H. reflexivity.
Qed.

(** With valid arguments the handler calls [fetch] once and answers with a
    text, whatever the network and the body do. *)
Lemma CallTool_valid rawArgs args tr :
  PriceArgsSchema_parse rawArgs = Normal args ->
  CallTool_handler rt "get-crypto-price" rawArgs tr
  = (Normal (text_result
       match net rt tr (price_url (coin args) (currency args)) with
       | Throw e => "Error: " ++ message rt e
       | Normal res =>
           match json_body res with
           | Throw e => "Error: " ++ message rt e
           | Normal data =>
               match lookup_price rt data (coin args) (currency args) with
               | Throw e => "Error: " ++ message rt e
               | Normal price =>
                   if falsy price
                   then not_found_text (coin args) (currency args)
                   else
                     match to_string rt price with
                     | Throw e => "Error: " ++ message rt e
                     | Normal shown =>
                         price_text rt (coin args) shown (currency args)
                     end
               end
           end
       end),
     (tr ++ [HttpGet (price_url (coin args) (currency args))])%list).
Proof.
  intros H. unfold CallTool_handler. rewrite String.eqb_refl.
  unfold try_catch, bind, lift, ret, fetch. rewrite H.
  destruct (net rt tr (price_url (coin args) (currency args))) as [res|e];
    [|reflexivity].
  destruct (json_body res) as [data|e]; [|reflexivity].
  destruct (lookup_price rt data (coin args) (currency args)) as [price|e];
    [|reflexivity].
  destruct (falsy price); [reflexivity|].
  destruct (to_string rt price) as [shown|e]; reflexivity.
Qed.

(** *** Reads of the parsed body *)

Lemma lookup_own members inner (coin currency : string) (j : json nonzero) :
  own_member members coin = Some (JObject inner) ->
  own_member inner currency = Some j ->
  lookup_price rt (JObject members) coin currency = Normal (Json j).
Proof.
  intros Hc Hcur. unfold lookup_price, get. rewrite Hc. simpl.
  rewrite Hcur. reflexivity.
Qed.




(** A body that is [null] has no members to read: the read throws, and the
    handler reports the TypeError as a text. *)
Lemma lookup_null_body (coin currency : string) :
  lookup_price rt JNull coin currency
  = Throw (JsError "TypeError" (nullish_read_message rt (Json JNull) coin)).
Proof. reflexivity. Qed.

Lemma falsy_zero (negative : bool) :
  @falsy nonzero native (Json (JNumber (Zero negative))) = true.
Proof. reflexivity. Qed.

Lemma falsy_nonzero (x : nonzero) :
  @falsy nonzero native (Json (JNumber (NonZero x))) = false.
Proof. reflexivity. Qed.

(** String conversion completes on every primitive. *)
Lemma to_string_primitive (v : value nonzero native) :
  match v with
  | Json (JArray _) | Json (JObject _) | Native _ => True
  | _ => exists s, to_string rt v = Normal s
  end.
Proof.
  destruct v as [|[| [|] | n | s | l | m]|o]; simpl; trivial; eexists;
    reflexivity.
Qed.

(** *** The server *)

Lemma serve_app (reqs1 reqs2 : list (request nonzero)) tr :
  serve rt (reqs1 ++ reqs2)%list tr
  = let (rs1, tr1) := serve rt reqs1 tr in
    let (rs2, tr2) := serve rt reqs2 tr1 in
    ((rs1 ++ rs2)%list, tr2).
Proof.
  revert tr. induction reqs1 as [|req reqs1 IH]; intros tr; simpl.
  - destruct (serve rt reqs2 tr); reflexivity.
  - destruct (server rt req tr) as [r tr']. rewrite IH.
    destruct (serve rt reqs1 tr') as [rs1 tr1].
    destruct (serve rt reqs2 tr1) as [rs2 tr2]. reflexivity.
Qed.

(** A call reaches the handler when its arguments pass the request check,
    and is answered with the error of the check otherwise. *)
Lemma server_call (name : string) rawArgs tr :
  server rt (CallToolRequest name rawArgs) tr
  = if record_or_absent rawArgs
    then respond rt CallResponse (CallTool_handler rt name rawArgs) tr
    else (ErrorResponse
            (zod_message rt
               [invalid_type PT_object (getParsedType rawArgs)
                  ["params"; "arguments"]]), tr).
Proof.
  destruct rawArgs as [[| b | n | s' | l | members]|]; reflexivity.
Qed.

(** ** The claims *)


(** C2: a call whose tool name is not ["get-crypto-price"] makes the handler
    throw [Error("Unknown tool: <name>")] whatever the arguments, and the
    handler throws nothing else; for a request the protocol layer hands to
    the handler (arguments absent or an object) the server answers with an
    error response carrying that message, not with a text result, and such
    a request gets an error response for no other reason. *)
Theorem unknown_tool_fault (name : string) rawArgs tr :
  name <> "get-crypto-price" ->
  CallTool_handler rt name rawArgs tr
  = (Throw (JsError "Error" ("Unknown tool: " ++ name)), tr)
  /\ (forall (name' : string) rawArgs' tr' e,
        fst (CallTool_handler rt name' rawArgs' tr') = Throw e ->
        name' <> "get-crypto-price"
        /\ e = JsError "Error" ("Unknown tool: " ++ name'))
  /\ (record_or_absent rawArgs = true ->
      server rt (CallToolRequest name rawArgs) tr
      = (ErrorResponse ("Unknown tool: " ++ name), tr))
  /\ (forall (name' : string) rawArgs' tr' (msg : string),
        record_or_absent rawArgs' = true ->
        fst (server rt (CallToolRequest name' rawArgs') tr')
        = ErrorResponse msg ->
        name' <> "get-crypto-price" /\ msg = "Unknown tool: " ++ name').
Proof.
  intros Hname.
  assert (forall (name' : string) rawArgs' tr' e,
             fst (CallTool_handler rt name' rawArgs' tr') = Throw e ->
             name' <> "get-crypto-price"
             /\ e = JsError "Error" ("Unknown tool: " ++ name')) as Honly.
  { intros name' rawArgs' tr' e.
    destruct (String.eqb_spec name' "get-crypto-price") as [->|Hne].
    - destruct (PriceArgsSchema_parse rawArgs') as [args|e'] eqn:E.
      + rewrite (CallTool_valid _ _ _ E). discriminate.
      + rewrite (CallTool_invalid _ _ _ E). discriminate.
    - rewrite (CallTool_unknown _ _ _ Hne). simpl. intros [= <-]. auto. }
  split; [apply CallTool_unknown, Hname|]. split; [exact Honly|]. split.
  - intros Hwf. rewrite server_call, Hwf. unfold respond.
    rewrite (CallTool_unknown _ _ _ Hname). reflexivity.
  - intros name' rawArgs' tr' msg Hwf. rewrite server_call, Hwf.
    unfold respond.
    destruct (CallTool_handler rt name' rawArgs' tr') as [[r|e] tr''] eqn:E;
      simpl; [discriminate|].
    intros [= <-].
    destruct (Honly name' rawArgs' tr' e) as [Hne ->];
      [rewrite E; reflexivity|].
    auto.
Qed.

(** C3 (as amended): with valid arguments, when the body holds at
    [coin] an object that holds at [currency] a nonzero number, a non-empty
    string or [true], the text is ["<COIN> = <price> <CURRENCY>"]: coin and
    currency upper-cased, and the price as the runtime's conversion to a
    string prints the parsed value (Number::toString for a number), with no
    rounding or formatting of the handler's own. *)
Theorem price_response rawArgs args tr res members inner price
  (shown : string) :
  PriceArgsSchema_parse rawArgs = Normal args ->
  net rt tr ("https://api.coingecko.com/api/v3/simple/price?ids="
               ++ coin args ++ "&vs_currencies=" ++ currency args)
  = Normal res ->
  json_body res = Normal (JObject members) ->
  own_member members (coin args) = Some (JObject inner) ->
  own_member inner (currency args) = Some price ->
  renders rt price shown ->
  fst (CallTool_handler rt "get-crypto-price" rawArgs tr)
  = Normal {| content :=
                [ {| type := "text";
                     text := toUpperCase rt (coin args) ++ " = " ++ shown
                               ++ " " ++ toUpperCase rt (currency args) |} ]
           |}.
Proof.
  intros Hargs Hnet Hbody Hc Hcur Hshown.
  change (net rt tr (price_url (coin args) (currency args)) = Normal res)
    in Hnet.
  rewrite (CallTool_valid _ _ _ Hargs), Hnet, Hbody.
  rewrite (lookup_own members inner _ _ price Hc Hcur).
  destruct Hshown as [x | s Hs | ]; simpl.
  - reflexivity.
  - destruct (String.eqb_spec s "") as [E|_]; [contradiction | reflexivity].
  - reflexivity.
Qed.

(** C4: arguments that fail validation ([coin] missing, empty or not a
    string, [currency] present but not a string, or no argument object) give
    a normal result with one text block ["Error: <message>"], the message
    being that of a [ZodError] whose issues name each failing field; nothing
    is thrown and no request is sent. *)
Theorem validation_error_response rawArgs tr :
  fails_validation rawArgs ->
  exists issues,
    issues <> []
    /\ PriceArgsSchema_parse rawArgs = Throw (ZodError issues)
    /\ describes rawArgs issues
    /\ CallTool_handler rt "get-crypto-price" rawArgs tr
       = (Normal {| content :=
                      [ {| type := "text";
                           text := "Error: " ++ zod_message rt issues |} ] |},
          tr).
Proof.
  intros H. apply fails_validation_iff in H. destruct H as [e He].
  destruct (parse_Throw _ _ He) as (issues & -> & Hne).
  exists issues. split; [exact Hne|]. split; [exact He|].
  split; [apply parse_describes, He|].
  apply (CallTool_invalid _ _ _ He).
Qed.

(** C5: a non-empty string [coin] with no [currency] passes validation with
    currency ["usd"]; the URL requested is the one for ["usd"], and the whole
    outcome is that of the same call with ["usd"] supplied.  After any
    successful validation the currency is the caller's string or the
    default. *)
Theorem default_currency members (c : string) tr :
  (own_member members "coin" = Some (JString c) ->
   c <> "" ->
   own_member members "currency" = None ->
   PriceArgsSchema_parse (Some (JObject members))
   = Normal {| coin := c; currency := "usd" |}
   /\ snd (CallTool_handler rt "get-crypto-price" (Some (JObject members)) tr)
      = (tr ++ [HttpGet (price_url c "usd")])%list
   /\ CallTool_handler rt "get-crypto-price" (Some (JObject members)) tr
      = CallTool_handler rt "get-crypto-price"
          (Some (JObject (("currency", JString "usd") :: members))) tr
   /\ (forall res data price,
         net rt tr (price_url c "usd") = Normal res ->
         json_body res = Normal data ->
         lookup_price rt data c "usd" = Normal price ->
         fst (CallTool_handler rt "get-crypto-price"
                (Some (JObject members)) tr)
         = Normal (text_result
             (if falsy price then not_found_text c "usd"
              else match to_string rt price with
                   | Normal shown => price_text rt c shown "usd"
                   | Throw e => "Error: " ++ message rt e
                   end))))
  /\ (forall rawArgs args,
        PriceArgsSchema_parse rawArgs = Normal args ->
        exists members',
          rawArgs = Some (JObject members')
          /\ (own_member members' "currency" = Some (JString (currency args))
              \/ (own_member members' "currency" = None
                  /\ currency args = "usd"))).
Proof.
  split.
  - intros Hc Hne Hcur.
    assert (PriceArgsSchema_parse (Some (JObject members))
            = Normal {| coin := c; currency := "usd" |}) as H1.
    { apply parse_Normal. exists members. split; [reflexivity|]. split.
      - apply coin_schema_inr. auto.
      - apply currency_schema_inr. left. auto. }
    assert (PriceArgsSchema_parse
              (Some (JObject (("currency", JString "usd") :: members)))
            = Normal {| coin := c; currency := "usd" |}) as H2.
    { apply parse_Normal. eexists. split; [reflexivity|]. simpl. split.
      - apply coin_schema_inr. auto.
      - reflexivity. }
    split; [exact H1|].
    rewrite (CallTool_valid _ _ _ H1), (CallTool_valid _ _ _ H2).
    split; [reflexivity|]. split; [reflexivity|].
    intros res data price Hnet Hbody Hprice. simpl in *.
    rewrite Hnet, Hbody, Hprice. reflexivity.
  - intros rawArgs args H. apply parse_Normal in H.
    destruct H as (members' & -> & _ & Hcur).
    exists members'. split; [reflexivity|].
    apply currency_schema_inr in Hcur. tauto.
Qed.

(** C6 (as amended): whatever requests came before, a tool-listing request is
    answered with exactly one descriptor: name ["get-crypto-price"], the
    CoinGecko description, and an object schema with a required string
    [coin] and an optional string [currency], described in the words of the
    source. *)
Theorem tool_listing (history : list (request nonzero)) tr :
  fst (serve rt (history ++ [ListToolsRequest])%list tr)
  = (fst (serve rt history tr)
       ++ [ToolsResponse {| tools := [
         {| name := "get-crypto-price";
            description :=
              "Fetch current price of a cryptocurrency from CoinGecko";
            inputSchema :=
              {| schema_type := "object";
                 properties :=
                   [ ("coin",
                      {| prop_type := "string";
                         prop_description :=
                           "CoinGecko coin ID (e.g., bitcoin, ethereum)" |});
                     ("currency",
                      {| prop_type := "string";
                         prop_description :=
                           "Fiat currency (e.g., usd, eur). Default is 'usd'."
                      |}) ];
                 required := ["coin"] |} |} ] |} ])%list.
Proof.
  rewrite serve_app.
  destruct (serve rt history tr) as [rs tr1]. reflexivity.
Qed.

(** C7: with valid arguments, when [fetch] rejects or the body is no JSON
    text, the result is a normal result with one text block ["Error:
    <message>"] carrying the message of what was thrown; and no call of the
    tool ever throws. *)
Theorem transport_error_response rawArgs tr :
  (exists r tr', CallTool_handler rt "get-crypto-price" rawArgs tr
                 = (Normal r, tr'))
  /\ (forall args,
        PriceArgsSchema_parse rawArgs = Normal args ->
        (forall e,
           net rt tr ("https://api.coingecko.com/api/v3/simple/price?ids="
                        ++ coin args ++ "&vs_currencies=" ++ currency args)
           = Throw e ->
           fst (CallTool_handler rt "get-crypto-price" rawArgs tr)
           = Normal {| content :=
                         [ {| type := "text";
                              text := "Error: " ++ message rt e |} ] |})
        /\ (forall res e,
              net rt tr ("https://api.coingecko.com/api/v3/simple/price?ids="
                           ++ coin args ++ "&vs_currencies="
                           ++ currency args)
              = Normal res ->
              json_body res = Throw e ->
              fst (CallTool_handler rt "get-crypto-price" rawArgs tr)
              = Normal {| content :=
                            [ {| type := "text";
                                 text := "Error: " ++ message rt e |} ] |})).
Proof.
  split.
  - destruct (PriceArgsSchema_parse rawArgs) as [args|e] eqn:E.
    + rewrite (CallTool_valid _ _ _ E). eexists. eexists. reflexivity.
    + rewrite (CallTool_invalid _ _ _ E). eexists. eexists. reflexivity.
  - intros args Hargs. rewrite (CallTool_valid _ _ _ Hargs). split.
    + intros e He.
      change (net rt tr (price_url (coin args) (currency args)) = Throw e)
        in He.
      rewrite He. reflexivity.
    + intros res e Hres Hbody.
      change (net rt tr (price_url (coin args) (currency args)) = Normal res)
        in Hres.
      rewrite Hres, Hbody. reflexivity.
Qed.

(** C8: for validated arguments the handler calls [fetch] exactly once, with
    the URL made of the fixed prefix, the coin, ["&vs_currencies="] and the
    currency, both as validation returned them, which is as the caller wrote
    them. *)
Theorem request_url rawArgs args tr :
  PriceArgsSchema_parse rawArgs = Normal args ->
  snd (CallTool_handler rt "get-crypto-price" rawArgs tr)
  = (tr ++ [HttpGet ("https://api.coingecko.com/api/v3/simple/price?ids="
                       ++ coin args ++ "&vs_currencies="
                       ++ currency args)])%list
  /\ exists members,
       rawArgs = Some (JObject members)
       /\ own_member members "coin" = Some (JString (coin args))
       /\ (own_member members "currency" = Some (JString (currency args))
           \/ (own_member members "currency" = None
               /\ currency args = "usd")).
Proof.
  intros Hargs. split.
  - rewrite (CallTool_valid _ _ _ Hargs). reflexivity.
  - apply parse_Normal in Hargs. destruct Hargs as (members & -> & Hc & Hcur).
    exists members. split; [reflexivity|].
    apply coin_schema_inr in Hc. apply currency_schema_inr in Hcur.
    split; [apply Hc | tauto].
Qed.

(** C9: for a tool name other than ["get-crypto-price"] the outcome does not
    depend on the arguments: any two argument values give the same thrown
    [Error("Unknown tool: <name>")] and leave the request log as it was. *)
Theorem unknown_tool_ignores_arguments (name : string) rawArgs1 rawArgs2 tr :
  name <> "get-crypto-price" ->
  CallTool_handler rt name rawArgs1 tr = CallTool_handler rt name rawArgs2 tr
  /\ CallTool_handler rt name rawArgs1 tr
     = (Throw (JsError "Error" ("Unknown tool: " ++ name)), tr).
Proof.
  intros Hname.
  rewrite (CallTool_unknown _ rawArgs1 _ Hname).
  rewrite (CallTool_unknown _ rawArgs2 _ Hname).
  split; reflexivity.
Qed.

(** C10: an empty string is rejected for [coin] and accepted for [currency]:
    the default is not applied, the URL ends in an empty currency, and a
    lookup that finds nothing for coin ["bitcoin"] reads ["Could not find
    price for bitcoin in ."]. *)
Theorem empty_currency_accepted members (c : string) tr :
  (own_member members "coin" = Some (JString "") ->
   exists issues,
     PriceArgsSchema_parse (Some (JObject members)) = Throw (ZodError issues)
     /\ In (too_small 1 ["coin"]) issues)
  /\ (own_member members "coin" = Some (JString c) ->
      c <> "" ->
      own_member members "currency" = Some (JString "") ->
      PriceArgsSchema_parse (Some (JObject members))
      = Normal {| coin := c; currency := "" |}
      /\ snd (CallTool_handler rt "get-crypto-price"
                (Some (JObject members)) tr)
         = (tr ++ [HttpGet ("https://api.coingecko.com/api/v3/simple/price?ids="
                              ++ c ++ "&vs_currencies=")])%list
      /\ (forall res data price,
            c = "bitcoin" ->
            net rt tr (price_url c "") = Normal res ->
            json_body res = Normal data ->
            lookup_price rt data c "" = Normal price ->
            falsy price = true ->
            fst (CallTool_handler rt "get-crypto-price"
                   (Some (JObject members)) tr)
            = Normal (text_result "Could not find price for bitcoin in ."))).
Proof.
  split.
  - intros Hc. unfold PriceArgsSchema_parse. rewrite Hc. simpl.
    destruct (currency_schema (own_member members "currency")) as [i|cur];
      eexists; (split; [reflexivity|]); simpl; auto.
  - intros Hc Hne Hcur.
    assert (PriceArgsSchema_parse (Some (JObject members))
            = Normal {| coin := c; currency := "" |}) as H1.
    { apply parse_Normal. exists members. split; [reflexivity|]. split.
      - apply coin_schema_inr. auto.
      - apply currency_schema_inr. right. exact Hcur. }
    split; [exact H1|]. rewrite (CallTool_valid _ _ _ H1). simpl. split.
    + reflexivity.
    + intros res data price -> -> -> -> ->. reflexivity.
Qed.

End Properties.

(** * Worked examples

    Each theorem above that has a premise, applied to a run of the example
    runtime; and the comparison of the listing with the descriptor of the
    specification. *)



Lemma unknown_tool_fault_example :
  ("not-a-real-tool" <> "get-crypto-price"
   /\ record_or_absent bitcoin_args = true)
  /\ CallTool_handler (online body_empty) "not-a-real-tool" bitcoin_args []
     = (Throw (JsError "Error" "Unknown tool: not-a-real-tool"), [])
  /\ server (online body_empty)
       (CallToolRequest "not-a-real-tool" bitcoin_args) []
     = (ErrorResponse "Unknown tool: not-a-real-tool", []).
Proof.
  assert ("not-a-real-tool" <> "get-crypto-price") as Hname
    by (intros H; discriminate H).
  split; [split; [exact Hname | reflexivity]|].
  destruct (unknown_tool_fault integer Empty_set (online body_empty)
              "not-a-real-tool" bitcoin_args [] Hname)
    as (Hthrow & _ & Hserver & _).
  exact (conj Hthrow (Hserver eq_refl)).
Defined.

Lemma price_response_example :
  (PriceArgsSchema_parse bitcoin_args
   = Normal {| coin := "bitcoin"; currency := "usd" |}
   /\ renders (online body_65000) (JNumber (NonZero (IntPos 65000))) "65000")
  /\ fst (CallTool_handler (online body_65000) "get-crypto-price"
            bitcoin_args [])
     = Normal {| content :=
                   [ {| type := "text"; text := "BITCOIN = 65000 USD" |} ] |}.
Proof.
  assert (renders (online body_65000) (JNumber (NonZero (IntPos 65000)))
            "65000") as Hshown
    by exact (renders_number (online body_65000) (IntPos 65000)).
  split; [split; [reflexivity | exact Hshown]|].
  exact (price_response integer Empty_set
           (online body_65000) bitcoin_args
           {| coin := "bitcoin"; currency := "usd" |} []
           {| json_body := Normal body_65000 |}
           [("bitcoin", JObject [("usd", JNumber (NonZero (IntPos 65000)))])]
           [("usd", JNumber (NonZero (IntPos 65000)))]
           (JNumber (NonZero (IntPos 65000))) "65000"
           eq_refl eq_refl eq_refl eq_refl eq_refl Hshown).
Defined.

(** The price the API writes as [1000000000000000000000] is shown as
    [1e+21]: the text carries the parsed number as the runtime prints it,
    not the digits of the response. *)
Lemma large_price_is_not_verbatim :
  PriceArgsSchema_parse bitcoin_args
  = Normal {| coin := "bitcoin"; currency := "usd" |}
  /\ fst (CallTool_handler (online body_1e21) "get-crypto-price"
            bitcoin_args [])
     = Normal {| content :=
                   [ {| type := "text"; text := "BITCOIN = 1e+21 USD" |} ] |}
  /\ fst (CallTool_handler (online body_1e21) "get-crypto-price"
            bitcoin_args [])
     <> Normal {| content :=
                    [ {| type := "text";
                         text := "BITCOIN = 1000000000000000000000 USD"
                      |} ] |}.
Proof.
  split; [reflexivity|]. split; [reflexivity|].
  intros H. discriminate H.
Qed.

Lemma validation_error_response_example :
  fails_validation numeric_coin_args
  /\ PriceArgsSchema_parse numeric_coin_args
     = Throw (ZodError [invalid_type PT_string PT_number ["coin"]])
  /\ CallTool_handler (online body_empty) "get-crypto-price"
       numeric_coin_args []
     = (Normal {| content :=
                    [ {| type := "text";
                         text := "Error: "
                                   ++ zod_message (online body_empty)
                                        [invalid_type PT_string PT_number
                                           ["coin"]] |} ] |}, []).
Proof.
  assert (fails_validation numeric_coin_args) as H.
  { simpl. right. right. left. eexists. split; reflexivity. }
  split; [exact H|].
  destruct (validation_error_response integer Empty_set
              (online body_empty) numeric_coin_args [] H)
    as (issues & _ & Hparse & _ & Hcall).
  assert (issues = [invalid_type PT_string PT_number ["coin"]]) as E.
  { cbv in Hparse. injection Hparse as <-. reflexivity. }
  rewrite E in Hparse, Hcall. exact (conj Hparse Hcall).
Defined.

Lemma default_currency_example :
  PriceArgsSchema_parse bitcoin_args
  = Normal {| coin := "bitcoin"; currency := "usd" |}
  /\ snd (CallTool_handler (online body_65000) "get-crypto-price"
            bitcoin_args [])
     = [HttpGet (price_url "bitcoin" "usd")]
  /\ CallTool_handler (online body_65000) "get-crypto-price" bitcoin_args []
     = CallTool_handler (online body_65000) "get-crypto-price"
         (Some (JObject [("currency", JString "usd");
                         ("coin", JString "bitcoin")])) [].
Proof.
  assert ("bitcoin" <> "") as Hne by (intros H; discriminate H).
  destruct (proj1 (default_currency integer Empty_set (online body_65000)
                     [("coin", JString "bitcoin")] "bitcoin" [])
              eq_refl Hne eq_refl) as (H1 & H2 & H3 & _).
  exact (conj H1 (conj H2 H3)).
Defined.

Lemma transport_error_response_example :
  (PriceArgsSchema_parse bitcoin_args
   = Normal {| coin := "bitcoin"; currency := "usd" |}
   /\ net (offline connection_refused) []
        "https://api.coingecko.com/api/v3/simple/price?ids=bitcoin&vs_currencies=usd"
      = Throw connection_refused)
  /\ fst (CallTool_handler (offline connection_refused) "get-crypto-price"
            bitcoin_args [])
     = Normal {| content :=
                   [ {| type := "text"; text := "Error: " ++ refusal |} ] |}.
Proof.
  split; [split; reflexivity|].
  exact (proj1 (proj2 (transport_error_response integer Empty_set
                         (offline connection_refused)
                         bitcoin_args [])
                  {| coin := "bitcoin"; currency := "usd" |} eq_refl)
           connection_refused eq_refl).
Defined.

Lemma request_url_example :
  PriceArgsSchema_parse bitcoin_args
  = Normal {| coin := "bitcoin"; currency := "usd" |}
  /\ snd (CallTool_handler (online body_65000)
            "get-crypto-price" bitcoin_args [])
     = [HttpGet
          ("https://api.coingecko.com/api/v3/simple/price"
             ++ "?ids=bitcoin&vs_currencies=usd")].
Proof.
  split; [reflexivity|].
  exact (proj1 (request_url integer Empty_set
                  (online body_65000) bitcoin_args
                  {| coin := "bitcoin"; currency := "usd" |} [] eq_refl)).
Defined.

Lemma unknown_tool_ignores_arguments_example :
  "not-a-real-tool" <> "get-crypto-price"
  /\ CallTool_handler (online body_65000) "not-a-real-tool" bitcoin_args []
     = CallTool_handler (online body_65000) "not-a-real-tool" None [].
Proof.
  assert ("not-a-real-tool" <> "get-crypto-price") as Hname
    by (intros H; discriminate H).
  split; [exact Hname|].
  exact (proj1 (unknown_tool_ignores_arguments integer Empty_set
                  (online body_65000)
                  "not-a-real-tool" bitcoin_args None [] Hname)).
Defined.

Lemma empty_currency_accepted_example :
  (PriceArgsSchema_parse bitcoin_empty_currency_args
   = Normal {| coin := "bitcoin"; currency := "" |}
   /\ lookup_price (online body_empty) body_empty "bitcoin" ""
      = Normal Undefined)
  /\ fst (CallTool_handler (online body_empty) "get-crypto-price"
            bitcoin_empty_currency_args [])
     = Normal (text_result "Could not find price for bitcoin in .").
Proof.
  assert ("bitcoin" <> "") as Hne by (intros H; discriminate H).
  split; [split; reflexivity|].
  exact (proj2 (proj2 (proj2 (empty_currency_accepted integer Empty_set
                                (online body_empty)
                                [("coin", JString "bitcoin");
                                 ("currency", JString "")] "bitcoin" [])
                         eq_refl Hne eq_refl))
           {| json_body := Normal body_empty |} body_empty Undefined
           eq_refl eq_refl eq_refl eq_refl eq_refl).
Defined.

(** Further runs: a body without the pair, a body that is no JSON text, and a
    body that is [null]. *)

Example empty_body_run :
  CallTool_handler (online body_empty) "get-crypto-price" bitcoin_args []
  = (Normal (text_result "Could not find price for bitcoin in usd."),
     [HttpGet (price_url "bitcoin" "usd")]).
Proof. reflexivity. Qed.

Example garbled_body_run :
  CallTool_handler (example_runtime (garbled not_json)) "get-crypto-price"
    bitcoin_args []
  = (Normal (text_result "Error: Unexpected token < in JSON at position 0"),
     [HttpGet (price_url "bitcoin" "usd")]).
Proof. reflexivity. Qed.

Example null_body_run :
  CallTool_handler (online JNull) "get-crypto-price" bitcoin_args []
  = (Normal (text_result
       "Error: Cannot read properties of null (reading 'bitcoin')"),
     [HttpGet (price_url "bitcoin" "usd")]).
Proof. reflexivity. Qed.

(** The listing the server sends is not the descriptor of section 6 of the
    specification: the two property descriptions are worded differently. *)
Lemma listing_differs_from_specification :
  fst (server (online body_empty) ListToolsRequest [])
  <> ToolsResponse {| tools := [spec_price_tool] |}.
Proof.
  intros H. discriminate H.
Qed.

(** * Sessions, arguments and start-up *)

Section Sessions.

Variables nonzero native : Type.
Variable rt : runtime nonzero native.

Implicit Types (members pre post : list (string * json nonzero)).
Implicit Types (rawArgs : option (json nonzero)) (args : PriceArgs).
Implicit Types (tr : trace) (req : request nonzero).
Implicit Types (reqs : list (request nonzero)).

(** ** Strings *)

Lemma append_nil_r (s : string) : s ++ "" = s.
Proof.
  induction s as [|c s IH]; simpl; [reflexivity|]. rewrite IH. reflexivity.
Qed.

Lemma append_assoc (s1 s2 s3 : string) : (s1 ++ s2) ++ s3 = s1 ++ s2 ++ s3.
Proof.
  induction s1 as [|c s1 IH]; simpl; [reflexivity|]. rewrite IH. reflexivity.
Qed.

Lemma append_length (s1 s2 : string) :
  String.length (s1 ++ s2) = String.length s1 + String.length s2.
Proof.
  induction s1 as [|c s1 IH]; simpl; [reflexivity|]. rewrite IH. reflexivity.
Qed.

Lemma append_cancel_l (s a b : string) : s ++ a = s ++ b -> a = b.
Proof.
  induction s as [|c s IH]; simpl; intros H; [exact H|].
  injection H as H. apply IH, H.
Qed.

Lemma append_cancel_r (a b s : string) : a ++ s = b ++ s -> a = b.
Proof.
  intros H.
  assert (String.length a = String.length b) as Hlen.
  { apply (f_equal String.length) in H. rewrite !append_length in H. lia. }
  revert b H Hlen. induction a as [|c a IH]; intros [|d b] H Hlen;
    simpl in *; try discriminate; [reflexivity|].
  injection H as -> H. f_equal. apply IH; [exact H | lia].
Qed.

Lemma prefix_append (p s : string) : String.prefix p (p ++ s) = true.
Proof.
  induction p as [|c p IH]; simpl; [destruct s; reflexivity|].
  destruct (ascii_dec c c) as [_|Hne]; [exact IH | contradiction].
Qed.

(** ** Arguments *)

Lemma own_member_skip pre post (k key : string) (v : json nonzero) :
  k <> key ->
  own_member (pre ++ (k, v) :: post)%list key
  = own_member (pre ++ post)%list key.
Proof.
  intros Hk. induction pre as [|[k' v'] pre IH]; simpl.
  - destruct (String.eqb_spec k key) as [E|_]; [contradiction | reflexivity].
  - rewrite IH. reflexivity.
Qed.

(** The handler sees its arguments through the schema only. *)
Lemma CallTool_parse_ext (name : string) rawArgs1 rawArgs2 tr :
  PriceArgsSchema_parse rawArgs1 = PriceArgsSchema_parse rawArgs2 ->
  CallTool_handler rt name rawArgs1 tr = CallTool_handler rt name rawArgs2 tr.
Proof.
  intros H. unfold CallTool_handler.
  destruct (String.eqb name "get-crypto-price"); [|reflexivity].
  unfold try_catch, bind, lift. rewrite H. reflexivity.
Qed.

Lemma parse_explicit args :
  coin args <> "" ->
  @PriceArgsSchema_parse nonzero (Some (explicit args)) = Normal args.
Proof.
  intros Hne. apply parse_Normal. eexists. split; [reflexivity|].
  split; [|reflexivity].
  apply coin_schema_inr. split; [reflexivity | exact Hne].
Qed.

(** X1: members of the argument object other than [coin] and [currency] are
    dropped: with or without such a member, wherever it stands, the call has
    the same outcome and sends the same request. *)
Theorem unknown_arguments_ignored
  pre post (k : string) (v : json nonzero) (name : string) tr :
  k <> "coin" ->
  k <> "currency" ->
  CallTool_handler rt name (Some (JObject (pre ++ (k, v) :: post)%list)) tr
  = CallTool_handler rt name (Some (JObject (pre ++ post)%list)) tr.
Proof.
  intros Hcoin Hcur. apply CallTool_parse_ext. unfold PriceArgsSchema_parse.
  rewrite !(own_member_skip pre post k _ v) by assumption. reflexivity.
Qed.

(** X2: validated arguments are a fixed point of validation: the coin is
    never empty, writing coin and currency out as an argument object
    validates to the same arguments, and the call with that object has the
    outcome of the original call. *)
Theorem validated_arguments_round_trip (name : string) rawArgs args tr :
  PriceArgsSchema_parse rawArgs = Normal args ->
  coin args <> ""
  /\ PriceArgsSchema_parse (Some (@explicit nonzero args)) = Normal args
  /\ CallTool_handler rt name (Some (explicit args)) tr
     = CallTool_handler rt name rawArgs tr.
Proof.
  intros H.
  assert (coin args <> "") as Hne.
  { apply parse_Normal in H. destruct H as (members & _ & Hc & _).
    apply coin_schema_inr in Hc. apply Hc. }
  split; [exact Hne|]. split; [apply parse_explicit, Hne|].
  apply CallTool_parse_ext. rewrite H. apply parse_explicit, Hne.
Qed.

(** ** One request *)

Lemma rejected_request_fails_validation rawArgs :
  record_or_absent rawArgs = false ->
  exists e, PriceArgsSchema_parse rawArgs = Throw e.
Proof.
  destruct rawArgs as [[| b | n | s' | l | members]|]; try discriminate;
    intros _; eexists; reflexivity.
Qed.

Lemma server_trace req tr :
  snd (server rt req tr) = (tr ++ outbound req)%list.
Proof.
  destruct req as [|name rawArgs].
  - simpl. unfold respond. simpl. rewrite app_nil_r. reflexivity.
  - rewrite server_call. simpl.
    destruct (record_or_absent rawArgs) eqn:Hwf; unfold respond.
    + destruct (String.eqb_spec name "get-crypto-price") as [->|Hne].
      * destruct (PriceArgsSchema_parse rawArgs) as [args|e] eqn:E.
        -- rewrite (CallTool_valid _ _ _ _ _ _ E). reflexivity.
        -- rewrite (CallTool_invalid _ _ _ _ _ _ E). simpl.
           rewrite app_nil_r. reflexivity.
      * rewrite (CallTool_unknown _ _ _ _ _ _ Hne). simpl.
        rewrite app_nil_r. reflexivity.
    + destruct (rejected_request_fails_validation rawArgs Hwf) as [e ->].
      destruct (String.eqb name "get-crypto-price"); simpl;
        rewrite app_nil_r; reflexivity.
Qed.

Lemma server_fits req tr : fits req (fst (server rt req tr)).
Proof.
  destruct req as [|name rawArgs]; [reflexivity|].
  rewrite server_call. simpl.
  destruct (record_or_absent rawArgs); [|eexists; reflexivity].
  unfold respond.
  destruct (String.eqb_spec name "get-crypto-price") as [->|Hne].
  - destruct (PriceArgsSchema_parse rawArgs) as [args|e] eqn:E.
    + rewrite (CallTool_valid _ _ _ _ _ _ E). eexists. reflexivity.
    + rewrite (CallTool_invalid _ _ _ _ _ _ E). eexists. reflexivity.
  - rewrite (CallTool_unknown _ _ _ _ _ _ Hne). reflexivity.
Qed.

Lemma server_history_free req tr1 tr2 :
  history_free (net rt) ->
  fst (server rt req tr1) = fst (server rt req tr2).
Proof.
  intros Hnet. destruct req as [|name rawArgs]; [reflexivity|].
  rewrite !server_call.
  destruct (record_or_absent rawArgs); [|reflexivity]. unfold respond.
  destruct (String.eqb_spec name "get-crypto-price") as [->|Hne].
  - destruct (PriceArgsSchema_parse rawArgs) as [args|e] eqn:E.
    + rewrite !(CallTool_valid _ _ _ _ _ _ E). simpl.
      rewrite (Hnet tr1 tr2). reflexivity.
    + rewrite !(CallTool_invalid _ _ _ _ _ _ E). reflexivity.
  - rewrite !(CallTool_unknown _ _ _ _ _ _ Hne). reflexivity.
Qed.

Lemma outbound_to_endpoint req :
  Forall (fun ev => to_endpoint ev = true) (outbound req).
Proof.
  destruct req as [|name rawArgs]; simpl; [constructor|].
  destruct (String.eqb name "get-crypto-price"); [|constructor].
  destruct (PriceArgsSchema_parse rawArgs) as [args|e]; constructor;
    [|constructor].
  apply (prefix_append endpoint).
Qed.

(** ** Runs of requests *)

Lemma serve_cons req reqs tr :
  serve rt (req :: reqs) tr
  = (fst (server rt req tr) :: fst (serve rt reqs (snd (server rt req tr))),
     snd (serve rt reqs (snd (server rt req tr)))).
Proof.
  simpl. destruct (server rt req tr) as [r tr']. simpl.
  destruct (serve rt reqs tr') as [rs tr'']. reflexivity.
Qed.

(** X3: the server keeps no state between requests: over a network whose
    answers do not depend on earlier calls, the responses of a run are those
    each request gets when it is served alone, whatever came before it. *)
Theorem responses_do_not_depend_on_history reqs tr :
  history_free (net rt) ->
  fst (serve rt reqs tr) = map (fun req => fst (server rt req [])) reqs.
Proof.
  intros Hnet. revert tr. induction reqs as [|req reqs IH]; intros tr.
  - reflexivity.
  - rewrite serve_cons. simpl. rewrite IH.
    rewrite (server_history_free req tr [] Hnet). reflexivity.
Qed.

(** X4: the calls of [fetch] made during a run are exactly one GET for each
    call of the price tool whose arguments validate, in the order of the
    requests; listings, unknown tools and invalid arguments send nothing, and
    what was logged before is kept. *)
Theorem session_traffic reqs tr :
  snd (serve rt reqs tr) = (tr ++ flat_map outbound reqs)%list.
Proof.
  revert tr. induction reqs as [|req reqs IH]; intros tr.
  - simpl. rewrite app_nil_r. reflexivity.
  - rewrite serve_cons. simpl. rewrite IH, server_trace, app_assoc.
    reflexivity.
Qed.

(** X5: every request the server sends goes to the one CoinGecko endpoint:
    if all earlier requests start with the endpoint's URL up to [ids=], so do
    all requests after any run, whatever the coin and currency strings are. *)
Theorem requests_stay_on_endpoint reqs tr :
  Forall (fun ev => to_endpoint ev = true) tr ->
  Forall (fun ev => to_endpoint ev = true) (snd (serve rt reqs tr)).
Proof.
  revert tr. induction reqs as [|req reqs IH]; intros tr Htr.
  - exact Htr.
  - rewrite serve_cons. simpl. apply IH. rewrite server_trace.
    apply Forall_app. split; [exact Htr | apply outbound_to_endpoint].
Qed.

(** X6: a run answers every request, in order, with a response of its kind:
    the one-tool listing for a listing request; for a call whose arguments
    are absent or an object, one text block if the tool is the price tool
    and the unknown-tool error for any other name; and an error response
    for a call whose arguments are anything else. *)
Theorem responses_fit_requests reqs tr :
  Forall2 fits reqs (fst (serve rt reqs tr)).
Proof.
  revert tr. induction reqs as [|req reqs IH]; intros tr.
  - constructor.
  - rewrite serve_cons. simpl. constructor; [apply server_fits | apply IH].
Qed.

(** X7: the result of a price call is always one text block, and its text
    one of three: an error text starting with ["Error: "], or, for arguments
    that validated, ["Could not find price for <coin> in <currency>."] or
    ["<COIN> = <price> <CURRENCY>"] for the validated coin and currency. *)
Theorem call_text_forms rawArgs tr :
  exists t,
    fst (CallTool_handler rt "get-crypto-price" rawArgs tr)
    = Normal {| content := [ {| type := "text"; text := t |} ] |}
    /\ (String.prefix "Error: " t = true
        \/ exists args,
             PriceArgsSchema_parse rawArgs = Normal args
             /\ (t = "Could not find price for " ++ coin args ++ " in "
                       ++ currency args ++ "."
                 \/ exists shown,
                      t = toUpperCase rt (coin args) ++ " = " ++ shown
                            ++ " " ++ toUpperCase rt (currency args))).
Proof.
  destruct (PriceArgsSchema_parse rawArgs) as [args|e] eqn:E.
  - rewrite (CallTool_valid _ _ _ _ _ _ E). eexists. split; [reflexivity|].
    destruct (net rt tr (price_url (coin args) (currency args))) as [res|e];
      [|left; apply (prefix_append "Error: ")].
    destruct (json_body res) as [data|e];
      [|left; apply (prefix_append "Error: ")].
    destruct (lookup_price rt data (coin args) (currency args)) as [price|e];
      [|left; apply (prefix_append "Error: ")].
    destruct (falsy price); [right; exists args; auto|].
    destruct (to_string rt price) as [shown|e];
      [|left; apply (prefix_append "Error: ")].
    right. exists args. split; [reflexivity|]. right. exists shown.
    reflexivity.
  - rewrite (CallTool_invalid _ _ _ _ _ _ E). eexists.
    split; [reflexivity|]. left. apply (prefix_append "Error: ").
Qed.

End Sessions.

(** ** The advertised schema and the schema that validates *)

(** X9: the listing advertises the schema validation enforces, except for
    the length of the coin: arguments validate exactly when they satisfy the
    advertised input schema and their coin is not the empty string. *)
Theorem advertised_schema_and_validation
  (nonzero : Type) (rawArgs : option (json nonzero)) :
  (exists args, PriceArgsSchema_parse rawArgs = Normal args)
  <-> (satisfies_input_schema (inputSchema price_tool) rawArgs = true
       /\ forall members,
            rawArgs = Some (JObject members) ->
            own_member members "coin" <> Some (JString "")).
Proof.
  split.
  - intros [args H]. apply parse_Normal in H.
    destruct H as (members & -> & Hc & Hcur).
    apply coin_schema_inr in Hc. destruct Hc as [Hc Hne].
    apply currency_schema_inr in Hcur. split.
    + simpl. rewrite Hc. simpl.
      destruct Hcur as [[-> _] | ->]; reflexivity.
    + intros members' [= <-]. rewrite Hc. intros [= E]. contradiction.
  - intros [Hsat Hne].
    destruct rawArgs as [[| b | n | s' | l | members]|]; try discriminate.
    simpl in Hsat.
    destruct (own_member members "coin") as [jc|] eqn:Ec; [|discriminate].
    destruct jc as [| b | n | c | l | m]; try discriminate.
    assert (c <> "") as Hc.
    { intros ->. apply (Hne members eq_refl). exact Ec. }
    destruct (own_member members "currency") as [jcur|] eqn:Ecur.
    + destruct jcur as [| b | n | cur | l | m]; try discriminate.
      exists {| coin := c; currency := cur |}.
      apply parse_Normal. exists members. rewrite Ec, Ecur.
      split; [reflexivity|]. split; [|reflexivity].
      apply coin_schema_inr. auto.
    + exists {| coin := c; currency := "usd" |}.
      apply parse_Normal. exists members. rewrite Ec, Ecur.
      split; [reflexivity|]. split; [|reflexivity].
      apply coin_schema_inr. auto.
Qed.

(** ** The request URL *)

(** X8: the URL fixes the currency once the coin is known and the coin once
    the currency is known, but not the pair: nothing is escaped, so a coin
    that holds ["&vs_currencies="] gives the URL of another coin and
    currency. *)
Theorem price_url_determines_one_argument (c1 c2 cur1 cur2 : string) :
  (price_url c1 cur1 = price_url c1 cur2 -> cur1 = cur2)
  /\ (price_url c1 cur1 = price_url c2 cur1 -> c1 = c2)
  /\ (price_url (c1 ++ "&vs_currencies=" ++ cur1) ""
      = price_url c1 (cur1 ++ "&vs_currencies=")
      /\ cur1 ++ "&vs_currencies=" <> "").
Proof.
  unfold price_url. split; [|split; [|split]].
  - intros H. apply append_cancel_l in H. apply append_cancel_l in H.
    apply append_cancel_l in H. exact H.
  - intros H. apply append_cancel_l in H.
    apply (append_cancel_r c1 c2 ("&vs_currencies=" ++ cur1)), H.
  - rewrite append_nil_r, !append_assoc. reflexivity.
  - destruct cur1; discriminate.
Qed.

(** ** Start-up *)

(** The process ends at start-up exactly when connecting the transport
    fails, and then with status 1 after one diagnostic that carries the
    failure; when connecting succeeds it writes the ready notice alone and
    keeps running. *)
Theorem startup (connect : completion unit) :
  match connect with
  | Normal _ =>
      exit_code (start connect) = None
      /\ diagnostics (start connect) = [[Text ready_notice]]
  | Throw e =>
      exit_code (start connect) = Some 1
      /\ diagnostics (start connect) = [[Text "Fatal error:"; Thrown e]]
  end.
Proof.
  destruct connect as [u|e]; split; reflexivity.
Qed.

(** ** Worked examples *)

Lemma unknown_arguments_ignored_example :
  ("verbose" <> "coin" /\ "verbose" <> "currency")
  /\ CallTool_handler (online body_65000) "get-crypto-price"
       (Some (JObject [("coin", JString "bitcoin");
                       ("verbose", JBool true)])) []
     = CallTool_handler (online body_65000) "get-crypto-price"
         bitcoin_args [].
Proof.
  assert ("verbose" <> "coin") as H1 by (intros H; discriminate H).
  assert ("verbose" <> "currency") as H2 by (intros H; discriminate H).
  split; [split; assumption|].
  exact (unknown_arguments_ignored integer Empty_set (online body_65000)
           [("coin", JString "bitcoin")] [] "verbose" (JBool true)
           "get-crypto-price" [] H1 H2).
Defined.

Lemma validated_arguments_round_trip_example :
  PriceArgsSchema_parse bitcoin_args
  = Normal {| coin := "bitcoin"; currency := "usd" |}
  /\ CallTool_handler (online body_65000) "get-crypto-price"
       (Some (JObject [("coin", JString "bitcoin");
                       ("currency", JString "usd")])) []
     = CallTool_handler (online body_65000) "get-crypto-price"
         bitcoin_args [].
Proof.
  split; [reflexivity|].
  exact (proj2 (proj2 (validated_arguments_round_trip integer Empty_set
                         (online body_65000) "get-crypto-price"
                         bitcoin_args
                         {| coin := "bitcoin"; currency := "usd" |} []
                         eq_refl))).
Defined.

Lemma responses_do_not_depend_on_history_example :
  history_free (net (online body_65000))
  /\ fst (serve (online body_65000)
            [CallToolRequest "get-crypto-price" bitcoin_args;
             ListToolsRequest;
             CallToolRequest "get-crypto-price" bitcoin_args] [])
     = [CallResponse (text_result "BITCOIN = 65000 USD");
        ToolsResponse {| tools := [price_tool] |};
        CallResponse (text_result "BITCOIN = 65000 USD")].
Proof.
  assert (history_free (net (online body_65000))) as H
    by (intros tr1 tr2 url; reflexivity).
  split; [exact H|].
  exact (responses_do_not_depend_on_history integer Empty_set
           (online body_65000)
           [CallToolRequest "get-crypto-price" bitcoin_args;
            ListToolsRequest;
            CallToolRequest "get-crypto-price" bitcoin_args] [] H).
Defined.

Lemma requests_stay_on_endpoint_example :
  Forall (fun ev => to_endpoint ev = true) []
  /\ Forall (fun ev => to_endpoint ev = true)
       (snd (serve (online body_65000)
               [CallToolRequest "get-crypto-price" bitcoin_args;
                CallToolRequest "get-crypto-price"
                  bitcoin_empty_currency_args] [])).
Proof.
  split; [constructor|].
  exact (requests_stay_on_endpoint integer Empty_set (online body_65000)
           [CallToolRequest "get-crypto-price" bitcoin_args;
            CallToolRequest "get-crypto-price" bitcoin_empty_currency_args]
           [] (Forall_nil _)).
Defined.

Lemma price_url_determines_one_argument_example :
  (price_url "bitcoin" "eur" = price_url "bitcoin" "eur" /\ "eur" = "eur")
  /\ price_url "bitcoin&vs_currencies=eur" ""
     = price_url "bitcoin" "eur&vs_currencies=".
Proof.
  split.
  - split; [reflexivity|].
    exact (proj1 (price_url_determines_one_argument
                    "bitcoin" "bitcoin" "eur" "eur") eq_refl).
  - exact (proj1 (proj2 (proj2 (price_url_determines_one_argument
                                  "bitcoin" "bitcoin" "eur" "eur")))).
Defined.
